(** * example_usage.py: the ExampleApp client of the AugmentOS SDK

    A shallow embedding of [archive/augmentos_cloud_library/example_usage.py]
    and the properties of its constructor, its four callbacks, [start] and
    [main].

    The program is a handful of straight-line methods over two kinds of
    objects: the [ExampleApp] instance, whose only attribute is [client], and
    the [AppClient] object of the imported SDK.  The SDK is not part of the
    file; it is an interface here (class [AppClientSDK]): a private state per
    client and one transition per method the program calls.  Every effect the
    program performs (an attribute assignment, an SDK call, a printed line, a
    sleep) is appended to a trace, so that "does exactly this and nothing
    else" is an equation between traces and stores. *)

From stdpp Require Import base strings list gmap pretty.
From Stdlib Require Import ZArith.

#[local] Set Warnings "-register-all".

(** ** Python values *)

(** Object identity: an index into the store. *)
Definition loc := nat.

(** The four methods of [ExampleApp] that are handed out as callbacks. *)
Inductive method :=
| m_on_transcript
| m_on_location
| m_on_camera
| m_on_other.

(** The values the program handles: the decoded payload a callback receives
    (None, booleans, numbers, strings, lists, dicts with string keys, in
    insertion order), references to objects and bound methods.  A float is
    kept as its IEEE-754 bit pattern; the program does no arithmetic. *)
Inductive pyval :=
| VNone
| VBool (b : bool)
| VInt (z : Z)
| VFloat (bits : Z)
| VStr (s : string)
| VList (items : list pyval)
| VDict (items : list (string * pyval))
| VRef (l : loc)
| VBound (self : loc) (m : method).

(** [d[k]] on the items of a dict. *)
Fixpoint dict_get (items : list (string * pyval)) (k : string) : option pyval :=
  match items with
  | [] => None
  | (k', v) :: rest => if decide (k' = k) then Some v else dict_get rest k
  end.

(** [v[k]] when [v] is a dict that has the key, nothing otherwise. *)
Definition item (v : pyval) (k : string) : option pyval :=
  match v with
  | VDict items => dict_get items k
  | _ => None
  end.

Definition is_dict (v : pyval) : bool :=
  match v with
  | VDict _ => true
  | _ => false
  end.

(** The exceptions the program can raise by itself. *)
Inductive exn :=
| KeyError (key : string)
| TypeError
| AttributeError (name : string).

Definition is_KeyError (e : exn) : bool :=
  match e with
  | KeyError _ => true
  | _ => false
  end.

(** ** The SDK interface *)

(** The keyword arguments of [AppClient(...)]. *)
Record AppClientArgs := {
  app_id : string;
  app_name : string;
  app_description : string;
  server_url : string;
  subscriptions : list string
}.

(** The methods of [AppClient] that the program calls. *)
Inductive client_method :=
| on_transcript_received
| on_location_received
| on_camera_received
| on_other_received
| send_reference_card
| AppClient_start.

Definition client_method_name (m : client_method) : string :=
  match m with
  | on_transcript_received => "on_transcript_received"
  | on_location_received => "on_location_received"
  | on_camera_received => "on_camera_received"
  | on_other_received => "on_other_received"
  | send_reference_card => "send_reference_card"
  | AppClient_start => "start"
  end.

(** The four methods that register a callback. *)
Definition is_registration (m : client_method) : bool :=
  match m with
  | on_transcript_received | on_location_received
  | on_camera_received | on_other_received => true
  | send_reference_card | AppClient_start => false
  end.

(** What the imported [augmentos_client] module provides: the private state
    of a client object, the state its constructor builds and the effect of
    a method call, with its arguments, on that state.  Calls return to the
    caller; the program discards their results. *)
Class AppClientSDK := {
  ClientState : Type;
  sdk_construct : AppClientArgs -> ClientState;
  sdk_method : client_method -> list pyval -> ClientState -> ClientState
}.

(** ** Effects *)

Inductive event :=
| EvAppClient (c : loc) (args : AppClientArgs)
| EvSetAttr (o : loc) (name : string) (v : pyval)
| EvClientCall (c : loc) (m : client_method) (args : list pyval)
| EvPrint (line : string)
| EvSleep (seconds : Z).

(** The outcome of running a piece of the program: it returned, it raised,
    or it is still running when the fuel given to a loop is used up. *)
Inductive outcome (A : Type) :=
| Returned (a : A)
| Raised (e : exn)
| Running.
Arguments Returned {A} a.
Arguments Raised {A} e.
Arguments Running {A}.

(** Projections of a trace, for counting what happened. *)
Definition constructions (evs : list event) : list (loc * AppClientArgs) :=
  omap (fun ev => match ev with EvAppClient c a => Some (c, a) | _ => None end) evs.

Definition registrations (evs : list event) : list (loc * client_method * list pyval) :=
  omap (fun ev =>
          match ev with
          | EvClientCall c m args =>
              if is_registration m then Some (c, m, args) else None
          | _ => None
          end) evs.

Definition assignments (evs : list event) : list (loc * string * pyval) :=
  omap (fun ev => match ev with EvSetAttr o n v => Some (o, n, v) | _ => None end) evs.

(** The arguments [__init__] passes to [AppClient]. *)
Definition example_args : AppClientArgs :=
  {| app_id := "com.exampletpa.example";
     app_name := "ExampleApp";
     app_description := "An example app for AugmentOS";
     server_url := "http://localhost:8080";
     subscriptions := ["*"%string] |}.

Section Program.
Context `{SDK : AppClientSDK}.

(** Python's [str()] of a value, as an f-string field formats it. *)
Variable py_str : pyval -> string.

(** An object of the store: an [ExampleApp] instance with its attribute
    dictionary, or a client object of the SDK. *)
Inductive obj :=
| Instance (attrs : gmap string pyval)
| Client (st : ClientState).

Record World := {
  heap : list obj;
  trace : list event
}.

Definition M (A : Type) : Type := World -> outcome A * World.

Definition ret {A} (a : A) : M A := fun w => (Returned a, w).

Definition raise {A} (e : exn) : M A := fun w => (Raised e, w).

Definition bind {A B} (m : M A) (k : A -> M B) : M B :=
  fun w =>
    match m w with
    | (Returned a, w') => k a w'
    | (Raised e, w') => (Raised e, w')
    | (Running, w') => (Running, w')
    end.

Notation "x <- m ;; k" := (bind m (fun x => k))
  (at level 100, m at next level, right associativity).
Notation "m ;;; k" := (bind m (fun _ => k))
  (at level 100, right associativity).

Definition emit (ev : event) : M unit :=
  fun w => (Returned tt, {| heap := heap w; trace := trace w ++ [ev] |}).

(** A new object, at the first free index. *)
Definition alloc (o : obj) : M loc :=
  fun w => (Returned (length (heap w)),
            {| heap := heap w ++ [o]; trace := trace w |}).

Definition method_of_name (name : string) : option method :=
  if decide (name = "on_transcript") then Some m_on_transcript
  else if decide (name = "on_location") then Some m_on_location
  else if decide (name = "on_camera") then Some m_on_camera
  else if decide (name = "on_other") then Some m_on_other
  else None.

(** [o.name] on an instance: the instance dictionary first, then the methods
    of the class, bound to the instance. *)
Definition getattr (o : loc) (name : string) : M pyval :=
  fun w =>
    match heap w !! o with
    | Some (Instance attrs) =>
        match attrs !! name with
        | Some v => (Returned v, w)
        | None =>
            match method_of_name name with
            | Some m => (Returned (VBound o m), w)
            | None => (Raised (AttributeError name), w)
            end
        end
    | _ => (Raised (AttributeError name), w)
    end.

(** [o.name = v] on an instance. *)
Definition setattr (o : loc) (name : string) (v : pyval) : M unit :=
  fun w =>
    match heap w !! o with
    | Some (Instance attrs) =>
        (Returned tt,
         {| heap := <[o := Instance (<[name := v]> attrs)]> (heap w);
            trace := trace w ++ [EvSetAttr o name v] |})
    | _ => (Raised (AttributeError name), w)
    end.

(** [v[key]] with a string key: a lookup on a dict, a KeyError when the
    key is missing; a TypeError on anything else (None, numbers and bound
    methods are not subscriptable, strings and lists take integer indices,
    and the objects of the program define no [__getitem__]). *)
Definition subscript (v : pyval) (key : string) : M pyval :=
  match v with
  | VDict items =>
      match dict_get items key with
      | Some x => ret x
      | None => raise (KeyError key)
      end
  | _ => raise TypeError
  end.

(** [AppClient(...)] with its keyword arguments: a new client object. *)
Definition AppClient (args : AppClientArgs) : M pyval :=
  c <- alloc (Client (sdk_construct args)) ;;
  emit (EvAppClient c args) ;;;
  ret (VRef c).

(** [v.m] for a method [m] of [AppClient]: [v] has to be a client object. *)
Definition client_attr (v : pyval) (m : client_method) : M loc :=
  fun w =>
    match v with
    | VRef c =>
        match heap w !! c with
        | Some (Client _) => (Returned c, w)
        | _ => (Raised (AttributeError (client_method_name m)), w)
        end
    | _ => (Raised (AttributeError (client_method_name m)), w)
    end.

(** The call [c.m(args)] itself, the method and the arguments being
    evaluated. *)
Definition invoke (c : loc) (m : client_method) (args : list pyval) : M pyval :=
  fun w =>
    match heap w !! c with
    | Some (Client st) =>
        (Returned VNone,
         {| heap := <[c := Client (sdk_method m args st)]> (heap w);
            trace := trace w ++ [EvClientCall c m args] |})
    | _ => (Raised TypeError, w)
    end.

(** [v.m(args)] in Python's order: the method is looked up on [v], then the
    arguments are evaluated, then the call is made. *)
Definition call_method (v : pyval) (m : client_method) (args : M (list pyval)) : M pyval :=
  c <- client_attr v m ;;
  a <- args ;;
  invoke c m a.

(** [print(line)]. *)
Definition print (line : string) : M pyval :=
  emit (EvPrint line) ;;; ret VNone.

(** [await asyncio.sleep(seconds)]. *)
Definition asyncio_sleep (seconds : Z) : M pyval :=
  emit (EvSleep seconds) ;;; ret VNone.

(** [while cond: body], run for at most [fuel] iterations. *)
Fixpoint while (fuel : nat) (cond : M bool) (body : M pyval) : M unit :=
  match fuel with
  | O => fun w => (Running, w)
  | S fuel' =>
      b <- cond ;;
      if b then (body ;;; while fuel' cond body) else ret tt
  end.

(** ** class ExampleApp *)

Definition __init__ (self : loc) : M pyval :=
  c <- AppClient {| app_id := "com.exampletpa.example";
                    app_name := "ExampleApp";
                    app_description := "An example app for AugmentOS";
                    server_url := "http://localhost:8080";
                    subscriptions := ["*"%string] |} ;;
  setattr self "client" c ;;;
  (* Register callbacks *)
  client <- getattr self "client" ;;
  call_method client on_transcript_received
    (cb <- getattr self "on_transcript" ;; ret [cb]) ;;;
  client <- getattr self "client" ;;
  call_method client on_location_received
    (cb <- getattr self "on_location" ;; ret [cb]) ;;;
  client <- getattr self "client" ;;
  call_method client on_camera_received
    (cb <- getattr self "on_camera" ;; ret [cb]) ;;;
  client <- getattr self "client" ;;
  call_method client on_other_received
    (cb <- getattr self "on_other" ;; ret [cb]) ;;;
  ret VNone.

(** The expression [ExampleApp()]: a new instance with an empty attribute
    dictionary, initialised by [__init__]. *)
Definition ExampleApp : M loc :=
  self <- alloc (Instance ∅) ;;
  __init__ self ;;;
  ret self.

Definition on_transcript (self : loc) (data : pyval) : M pyval :=
  print ("[ExampleApp on_transcript] Data received in callback: " +:+ py_str data) ;;;
  inner <- subscript data "data" ;;
  transcript_text <- subscript inner "text" ;;
  client <- getattr self "client" ;;
  call_method client send_reference_card
    (user_id <- subscript data "user_id" ;;
     ret [user_id; VStr "ExampleTitle"; transcript_text]) ;;;
  ret VNone.

Definition on_location (self : loc) (data : pyval) : M pyval :=
  print ("[ExampleApp on_location] Data received in callback: " +:+ py_str data) ;;;
  ret VNone.

Definition on_camera (self : loc) (data : pyval) : M pyval :=
  print ("[ExampleApp on_camera] Data received in callback: " +:+ py_str data) ;;;
  ret VNone.

Definition on_other (self : loc) (data : pyval) : M pyval :=
  print ("[ExampleApp on_other] Data received in callback: " +:+ py_str data) ;;;
  ret VNone.

Definition start (self : loc) : M pyval :=
  (* Start the FastAPI server in a separate thread *)
  client <- getattr self "client" ;;
  call_method client AppClient_start (ret []) ;;;
  ret VNone.

(** ** main *)

Definition main (fuel : nat) : M pyval :=
  example_app <- ExampleApp ;;
  start example_app ;;;
  (* Run indefinitely to keep the FastAPI app running *)
  while fuel (ret true) (asyncio_sleep 3600) ;;;
  ret VNone.

(** ** The operations of the program on a constructed app *)

Inductive operation :=
| op_start
| op_on_transcript (data : pyval)
| op_on_location (data : pyval)
| op_on_camera (data : pyval)
| op_on_other (data : pyval).

Definition perform (self : loc) (op : operation) : M pyval :=
  match op with
  | op_start => start self
  | op_on_transcript data => on_transcript self data
  | op_on_location data => on_location self data
  | op_on_camera data => on_camera self data
  | op_on_other data => on_other self data
  end.

(** The world after a sequence of operations, each run to its outcome
    (a callback that raises leaves the world it reached). *)
Fixpoint perform_all (self : loc) (ops : list operation) (w : World) : World :=
  match ops with
  | [] => w
  | op :: rest => perform_all self rest (perform self op w).2
  end.

(** The client object the [client] attribute of [self] refers to, when
    [self] is an instance that has one. *)
Definition client_of (w : World) (self : loc) : option loc :=
  match heap w !! self with
  | Some (Instance attrs) =>
      match attrs !! "client" with
      | Some (VRef c) =>
          match heap w !! c with
          | Some (Client _) => Some c
          | _ => None
          end
      | _ => None
      end
  | _ => None
  end.

(** ** What the runs are compared with *)

(** The effects of [ExampleApp()], for the instance [self] and its client
    [c], and the state of the client once the four callbacks are
    registered. *)
Definition init_events (self c : loc) : list event :=
  [EvAppClient c example_args;
   EvSetAttr self "client" (VRef c);
   EvClientCall c on_transcript_received [VBound self m_on_transcript];
   EvClientCall c on_location_received [VBound self m_on_location];
   EvClientCall c on_camera_received [VBound self m_on_camera];
   EvClientCall c on_other_received [VBound self m_on_other]].

Definition registered_state (self : loc) : ClientState :=
  sdk_method on_other_received [VBound self m_on_other]
    (sdk_method on_camera_received [VBound self m_on_camera]
       (sdk_method on_location_received [VBound self m_on_location]
          (sdk_method on_transcript_received [VBound self m_on_transcript]
             (sdk_construct example_args)))).

(** The line [on_transcript] prints first. *)
Definition transcript_line (data : pyval) : string :=
  "[ExampleApp on_transcript] Data received in callback: " +:+ py_str data.

(** The exception [on_transcript] raises on a dict that lacks one of the
    keys it reads: the first failing subscript of
    [data['data']['text']], then [data['user_id']]. *)
Definition transcript_error (items : list (string * pyval)) : exn :=
  match dict_get items "data" with
  | None => KeyError "data"
  | Some (VDict inner_items) =>
      match dict_get inner_items "text" with
      | None => KeyError "text"
      | Some _ => KeyError "user_id"
      end
  | Some _ => TypeError
  end.

End Program.

(** ** A concrete SDK and renderer, to run the program on examples *)

(** A client that only records the calls made on it. *)
Definition LogSDK : AppClientSDK := {|
  ClientState := list (client_method * list pyval);
  sdk_construct := fun _ => [];
  sdk_method := fun m args st => st ++ [(m, args)]
|}.

(** A rendering of values for the examples: Python's own for None,
    booleans, integers, and for strings, lists and dicts whose strings need
    no escaping; a placeholder for the rest. *)
Fixpoint py_repr (v : pyval) : string :=
  match v with
  | VNone => "None"
  | VBool true => "True"
  | VBool false => "False"
  | VInt z => pretty z
  | VFloat _ => "<float>"
  | VStr s => "'" +:+ s +:+ "'"
  | VList items =>
      "[" +:+
      (fix go (l : list pyval) : string :=
         match l with
         | [] => ""
         | [x] => py_repr x
         | x :: r => py_repr x +:+ ", " +:+ go r
         end) items +:+ "]"
  | VDict items =>
      "{" +:+
      (fix go (l : list (string * pyval)) : string :=
         match l with
         | [] => ""
         | [(k, x)] => "'" +:+ k +:+ "': " +:+ py_repr x
         | (k, x) :: r => "'" +:+ k +:+ "': " +:+ py_repr x +:+ ", " +:+ go r
         end) items +:+ "}"
  | VRef _ => "<object>"
  | VBound _ _ => "<bound method>"
  end.

(** The world of a fresh interpreter, and the one [ExampleApp()] leaves. *)
Definition empty_world : @World LogSDK := {| heap := []; trace := [] |}.

Definition app_world : @World LogSDK := (@ExampleApp LogSDK empty_world).2.

(** A transcript event as the SDK delivers it, and two malformed ones. *)
Definition transcript_event : pyval :=
  VDict [("user_id"%string, VStr "user-1");
         ("data"%string, VDict [("text"%string, VStr "hello world")])].

Definition null_payload_event : pyval :=
  VDict [("data"%string, VNone)].

Definition anonymous_event : pyval :=
  VDict [("data"%string, VDict [("text"%string, VStr "hello world")])].

(** A run of the app: started, then four events delivered, one of them
    malformed. *)
Definition sample_ops : list operation :=
  [op_start;
   op_on_transcript transcript_event;
   op_on_location (VDict [("lat"%string, VInt 52); ("lng"%string, VInt 4)]);
   op_on_transcript null_payload_event;
   op_on_other VNone].

(** ** The callers of the program's functions *)

Section Callers.
Context `{SDK : AppClientSDK}.
Variable py_str : pyval -> string.

(** [await f(data, ...)] on a value the program hands out: a bound method of
    [ExampleApp] takes the one argument [data]; nothing else the program
    handles is callable. *)
Definition call (f : pyval) (args : list pyval) : M pyval :=
  match f with
  | VBound self m =>
      match args with
      | [data] =>
          match m with
          | m_on_transcript => on_transcript py_str self data
          | m_on_location => on_location py_str self data
          | m_on_camera => on_camera py_str self data
          | m_on_other => on_other py_str self data
          end
      | _ => raise TypeError
      end
  | _ => raise TypeError
  end.



(** The user id and the text [on_transcript] reads from its input, in the
    order it reads them, when all three subscripts succeed. *)
Definition transcript_fields (data : pyval) : option (pyval * pyval) :=
  match item data "data" with
  | Some inner =>
      match item inner "text" with
      | Some text =>
          match item data "user_id" with
          | Some user_id => Some (user_id, text)
          | None => None
          end
      | None => None
      end
  | None => None
  end.

(** The calls on the client an operation on a constructed app is expected
    to make. *)
Definition expected_calls (op : operation) : list (client_method * list pyval) :=
  match op with
  | op_start => [(AppClient_start, [])]
  | op_on_transcript data =>
      match transcript_fields data with
      | Some (user_id, text) =>
          [(send_reference_card, [user_id; VStr "ExampleTitle"; text])]
      | None => []
      end
  | op_on_location _ | op_on_camera _ | op_on_other _ => []
  end.

(** The state of a client after a list of calls. *)
Definition after_calls (calls : list (client_method * list pyval))
    (st : ClientState) : ClientState :=
  foldl (fun s call => sdk_method call.1 call.2 s) st calls.

(** What the store says about instances: for each object, its attribute
    dictionary when it is an instance. *)
Definition instances (h : list obj) : list (option (gmap string pyval)) :=
  (fun ob => match ob with Instance attrs => Some attrs | Client _ => None end) <$> h.

(** [w'] comes after [w] with the same objects of the same kinds, every
    instance as it was, and a longer trace without any assignment or
    construction. *)
Definition settled (w w' : World) : Prop :=
  instances (heap w') = instances (heap w) /\
  exists evs,
    trace w' = trace w ++ evs /\ assignments evs = [] /\ constructions evs = [].

(** A piece of program that takes every world to a settled one. *)
Definition quiet {A} (m : M A) : Prop := forall w, settled w (m w).2.

End Callers.

(** More projections of a trace. *)
Definition client_calls (evs : list event) : list (loc * client_method * list pyval) :=
  omap (fun ev => match ev with EvClientCall c m args => Some (c, m, args) | _ => None end) evs.

Definition prints (evs : list event) : list string :=
  omap (fun ev => match ev with EvPrint line => Some line | _ => None end) evs.

(** ** Properties *)

Section Correctness.
Context `{SDK : AppClientSDK}.
Variable py_str : pyval -> string.

Implicit Types (w : World) (self c o : loc) (data v : pyval) (h : list obj)
  (t evs : list event) (attrs : gmap string pyval) (st : ClientState).

(** *** The store around a new pair of objects *)

Lemma heap_lookup_0 {A} (l : list A) x r : (l ++ x :: r) !! length l = Some x.
Proof. now apply list_lookup_middle. Qed.

Lemma heap_lookup_1 {A} (l : list A) x y r :
  (l ++ x :: y :: r) !! S (length l) = Some y.
Proof.
  replace (l ++ x :: y :: r) with ((l ++ [x]) ++ y :: r)
    by now rewrite <- app_assoc.
  apply list_lookup_middle. rewrite length_app. cbn. lia.
Qed.

Lemma heap_insert_0 {A} (l : list A) x z r :
  <[length l := z]> (l ++ x :: r) = l ++ z :: r.
Proof. replace (length l) with (length l + 0) by lia. now rewrite insert_app_r. Qed.

Lemma heap_insert_1 {A} (l : list A) x y z r :
  <[S (length l) := z]> (l ++ x :: y :: r) = l ++ x :: z :: r.
Proof. replace (S (length l)) with (length l + 1) by lia. now rewrite insert_app_r. Qed.

(** *** One step of a sequence *)

Lemma bind_Returned {A B} (m : M A) (k : A -> M B) w a w' :
  m w = (Returned a, w') -> bind m k w = k a w'.
Proof. intros E. unfold bind. now rewrite E. Qed.

Lemma run_bind_bind {A B C} (m : M A) (f : A -> M B) (k : B -> M C) w :
  bind (bind m f) k w = bind m (fun a => bind (f a) k) w.
Proof. unfold bind. destruct (m w) as [[a|e|] w']; reflexivity. Qed.

Lemma run_bind_ret {A B} (a : A) (k : A -> M B) w : bind (ret a) k w = k a w.
Proof. reflexivity. Qed.

Lemma run_bind_raise {A B} e (k : A -> M B) w :
  bind (raise e) k w = (Raised e, w).
Proof. reflexivity. Qed.

Lemma run_bind_alloc {B} (ob : obj) (k : loc -> M B) h t :
  bind (alloc ob) k {| heap := h; trace := t |} =
  k (length h) {| heap := h ++ [ob]; trace := t |}.
Proof. reflexivity. Qed.

Lemma run_bind_emit {B} ev (k : unit -> M B) h t :
  bind (emit ev) k {| heap := h; trace := t |} =
  k tt {| heap := h; trace := t ++ [ev] |}.
Proof. reflexivity. Qed.

Lemma run_bind_setattr {B} o name v (k : unit -> M B) h t attrs :
  h !! o = Some (Instance attrs) ->
  bind (setattr o name v) k {| heap := h; trace := t |} =
  k tt {| heap := <[o := Instance (<[name := v]> attrs)]> h;
          trace := t ++ [EvSetAttr o name v] |}.
Proof. intros Ho. unfold bind, setattr. cbn [heap trace]. now rewrite Ho. Qed.

Lemma run_bind_getattr {B} o name (k : pyval -> M B) w attrs v :
  heap w !! o = Some (Instance attrs) -> attrs !! name = Some v ->
  bind (getattr o name) k w = k v w.
Proof. intros Ho Hn. unfold bind, getattr. now rewrite Ho, Hn. Qed.

Lemma run_bind_getattr_method {B} o name (k : pyval -> M B) w attrs m :
  heap w !! o = Some (Instance attrs) -> attrs !! name = None ->
  method_of_name name = Some m ->
  bind (getattr o name) k w = k (VBound o m) w.
Proof. intros Ho Hn Hm. unfold bind, getattr. now rewrite Ho, Hn, Hm. Qed.

Lemma run_bind_client_attr {B} c m (k : loc -> M B) w st :
  heap w !! c = Some (Client st) ->
  bind (client_attr (VRef c) m) k w = k c w.
Proof. intros Hc. unfold bind, client_attr. now rewrite Hc. Qed.

Lemma run_bind_invoke {B} c m args (k : pyval -> M B) h t st :
  h !! c = Some (Client st) ->
  bind (invoke c m args) k {| heap := h; trace := t |} =
  k VNone {| heap := <[c := Client (sdk_method m args st)]> h;
             trace := t ++ [EvClientCall c m args] |}.
Proof. intros Hc. unfold bind, invoke. cbn [heap trace]. now rewrite Hc. Qed.

Lemma run_bind_subscript {B} items key x (k : pyval -> M B) w :
  dict_get items key = Some x ->
  bind (subscript (VDict items) key) k w = k x w.
Proof. intros E. unfold subscript. now rewrite E. Qed.

Lemma run_bind_subscript_missing {B} items key (k : pyval -> M B) w :
  dict_get items key = None ->
  bind (subscript (VDict items) key) k w = (Raised (KeyError key), w).
Proof. intros E. unfold subscript. now rewrite E. Qed.

Lemma run_bind_subscript_not_dict {B} v key (k : pyval -> M B) w :
  is_dict v = false ->
  bind (subscript v key) k w = (Raised TypeError, w).
Proof. destruct v; try discriminate; reflexivity. Qed.

Ltac heap_solve :=
  cbn [heap trace];
  first [ eassumption | apply heap_lookup_0 | apply heap_lookup_1 ].

Ltac attr_solve :=
  first [ eassumption | apply lookup_insert_eq
        | rewrite lookup_insert_ne by done; apply lookup_empty ].

(** Runs the next statement of a program applied to a world. *)
Ltac mstep :=
  first
    [ rewrite run_bind_bind
    | rewrite run_bind_ret
    | rewrite run_bind_raise
    | rewrite run_bind_alloc
    | rewrite run_bind_emit
    | erewrite run_bind_setattr by heap_solve
    | erewrite run_bind_getattr by (first [heap_solve | attr_solve])
    | erewrite run_bind_getattr_method
        by (first [heap_solve | attr_solve | reflexivity])
    | erewrite run_bind_client_attr by heap_solve
    | erewrite run_bind_invoke by heap_solve
    | erewrite run_bind_subscript by eassumption
    | erewrite run_bind_subscript_missing by eassumption
    | erewrite run_bind_subscript_not_dict by (first [eassumption | reflexivity])
    | rewrite heap_insert_0 | rewrite heap_insert_1
    | rewrite <- app_assoc; cbn [app] ].

(** *** The constructor *)

(** What [ExampleApp()] does to any world: two new objects, the instance
    and its client, and six effects. *)
Lemma ExampleApp_run w :
  let self := length (heap w) in
  let c := S self in
  ExampleApp w =
    (Returned self,
     {| heap := heap w ++
          [Instance (<["client" := VRef c]> ∅); Client (registered_state self)];
        trace := trace w ++ init_events self c |}).
Proof.
  intros self c. destruct w as [h t]. subst self c. cbn [heap trace].
  unfold ExampleApp, __init__, AppClient, call_method.
  repeat mstep.
  rewrite length_app, Nat.add_1_r. cbn [length].
  repeat mstep.
  reflexivity.
Qed.

Lemma client_of_Some w self c :
  client_of w self = Some c ->
  exists attrs st,
    heap w !! self = Some (Instance attrs) /\
    attrs !! "client" = Some (VRef c) /\
    heap w !! c = Some (Client st).
Proof.
  unfold client_of.
  destruct (heap w !! self) as [[attrs|]|] eqn:Hs; try discriminate.
  destruct (attrs !! "client") as [[]|] eqn:Ha; try discriminate.
  destruct (heap w !! l) as [[|st]|] eqn:Hc; try discriminate.
  intros [= <-]. eauto.
Qed.

Lemma client_of_intro w self c attrs st :
  heap w !! self = Some (Instance attrs) ->
  attrs !! "client" = Some (VRef c) ->
  heap w !! c = Some (Client st) ->
  client_of w self = Some c.
Proof. intros Hs Ha Hc. unfold client_of. now rewrite Hs, Ha, Hc. Qed.

(** A call on a client object leaves the [client] attribute of every
    instance pointing where it did. *)
Lemma client_of_after_call w self c c' st0 st' t' :
  client_of w self = Some c ->
  heap w !! c' = Some (Client st0) ->
  client_of {| heap := <[c' := Client st']> (heap w); trace := t' |} self = Some c.
Proof.
  intros H Hc'. apply client_of_Some in H as (attrs & st & Hs & Ha & Hc).
  assert (c' <> self) by congruence.
  destruct (decide (c' = c)) as [->|Hne].
  - eapply client_of_intro; cbn [heap]; eauto.
    + now rewrite list_lookup_insert_ne.
    + apply list_lookup_insert_eq. eapply lookup_lt_Some; eauto.
  - eapply client_of_intro; cbn [heap]; eauto.
    + now rewrite list_lookup_insert_ne.
    + rewrite list_lookup_insert_ne; eauto.
Qed.

(** After [ExampleApp()] the new instance has its client. *)
Lemma client_of_new h t' st :
  client_of
    {| heap := h ++ [Instance (<["client" := VRef (S (length h))]> ∅); Client st];
       trace := t' |} (length h) = Some (S (length h)).
Proof.
  eapply client_of_intro; cbn [heap].
  - apply heap_lookup_0.
  - apply lookup_insert_eq.
  - apply heap_lookup_1.
Qed.

(** *** The methods on a constructed app *)

Lemma start_run w self c attrs st :
  heap w !! self = Some (Instance attrs) ->
  attrs !! "client" = Some (VRef c) ->
  heap w !! c = Some (Client st) ->
  start self w =
    (Returned VNone,
     {| heap := <[c := Client (sdk_method AppClient_start [] st)]> (heap w);
        trace := trace w ++ [EvClientCall c AppClient_start []] |}).
Proof.
  intros Hs Ha Hc. destruct w as [h t]. cbn [heap trace] in *.
  unfold start, call_method. repeat mstep. reflexivity.
Qed.

(** [on_transcript] on any input either stops after the printed line or
    goes on to the one call on the client. *)
Lemma on_transcript_worlds w self c attrs st data :
  heap w !! self = Some (Instance attrs) ->
  attrs !! "client" = Some (VRef c) ->
  heap w !! c = Some (Client st) ->
  (on_transcript py_str self data w).2 =
    {| heap := heap w;
       trace := trace w ++ [EvPrint (transcript_line py_str data)] |} \/
  exists args,
    (on_transcript py_str self data w).2 =
      {| heap := <[c := Client (sdk_method send_reference_card args st)]> (heap w);
         trace := trace w ++
           [EvPrint (transcript_line py_str data);
            EvClientCall c send_reference_card args] |}.
Proof.
  intros Hs Ha Hc. destruct w as [h t]. cbn [heap trace] in *.
  unfold on_transcript, print, call_method, transcript_line.
  destruct data as [| | | | | |items| |];
    try (left; repeat mstep; reflexivity).
  destruct (dict_get items "data") as [inner|] eqn:Hd;
    [|left; repeat mstep; reflexivity].
  destruct inner as [| | | | | |inner_items| |];
    try (left; repeat mstep; reflexivity).
  destruct (dict_get inner_items "text") as [text|] eqn:Ht;
    [|left; repeat mstep; reflexivity].
  destruct (dict_get items "user_id") as [user_id|] eqn:Hu;
    [|left; repeat mstep; reflexivity].
  right. eexists. repeat mstep. reflexivity.
Qed.

(** *** The loop of main *)

Lemma idle_loop_run fuel seconds w :
  while fuel (ret true) (asyncio_sleep seconds) w =
    (Running,
     {| heap := heap w; trace := trace w ++ repeat (EvSleep seconds) fuel |}).
Proof.
  revert w. induction fuel as [|fuel IH]; intros [h t]; cbn [heap trace].
  - cbn. now rewrite app_nil_r.
  - cbn [while]. rewrite run_bind_ret. unfold asyncio_sleep.
    repeat mstep. rewrite IH. cbn [heap trace repeat].
    now rewrite <- app_assoc.
Qed.

Lemma main_run fuel w :
  let self := length (heap w) in
  let c := S self in
  main fuel w =
    (Running,
     {| heap := heap w ++
          [Instance (<["client" := VRef c]> ∅);
           Client (sdk_method AppClient_start [] (registered_state self))];
        trace := trace w ++
          init_events self c ++ [EvClientCall c AppClient_start []] ++
          repeat (EvSleep 3600) fuel |}).
Proof.
  intros self c. subst self c. unfold main.
  rewrite (bind_Returned _ _ _ _ _ (ExampleApp_run w)).
  erewrite bind_Returned.
  2:{ eapply start_run; cbn [heap].
      - apply heap_lookup_0.
      - apply lookup_insert_eq.
      - apply heap_lookup_1. }
  cbn [heap trace]. rewrite heap_insert_1.
  unfold bind. rewrite idle_loop_run. cbn [heap trace].
  now rewrite <- !app_assoc.
Qed.

Lemma assignments_sleeps seconds n : assignments (repeat (EvSleep seconds) n) = [].
Proof. induction n as [|n IH]; [reflexivity | exact IH]. Qed.

(** *** The client attribute under the operations *)

Lemma perform_keeps_client w self c op :
  client_of w self = Some c ->
  client_of (perform py_str self op w).2 self = Some c /\
  exists evs,
    trace (perform py_str self op w).2 = trace w ++ evs /\
    assignments evs = [].
Proof.
  intros H. pose proof (client_of_Some _ _ _ H) as (attrs & st & Hs & Ha & Hc).
  destruct op as [|data|data|data|data]; cbn [perform].
  - rewrite (start_run _ _ _ _ _ Hs Ha Hc). cbn [snd]. split.
    + eapply client_of_after_call; eauto.
    + eexists. split; reflexivity.
  - destruct (on_transcript_worlds w self c attrs st data Hs Ha Hc)
      as [E|[args E]]; rewrite E; (split; [|eexists; split; reflexivity]).
    + exact H.
    + eapply client_of_after_call; eauto.
  - split; [exact H|]. eexists. split; reflexivity.
  - split; [exact H|]. eexists. split; reflexivity.
  - split; [exact H|]. eexists. split; reflexivity.
Qed.

Lemma perform_all_keeps_client ops w self c :
  client_of w self = Some c ->
  client_of (perform_all py_str self ops w) self = Some c /\
  exists evs,
    trace (perform_all py_str self ops w) = trace w ++ evs /\
    assignments evs = [].
Proof.
  revert w. induction ops as [|op ops IH]; intros w H; cbn [perform_all].
  - split; [exact H|]. exists []. split; [now rewrite app_nil_r | reflexivity].
  - destruct (perform_keeps_client w self c op H) as (H1 & evs1 & T1 & A1).
    destruct (IH _ H1) as (H2 & evs2 & T2 & A2).
    split; [exact H2|]. exists (evs1 ++ evs2). split.
    + now rewrite T2, T1, app_assoc.
    + unfold assignments in *. now rewrite omap_app, A1, A2.
Qed.

(** *** C1, C2: the constructor *)

(** C1. [ExampleApp()] registers exactly four callbacks, in this order:
    [on_transcript_received(self.on_transcript)],
    [on_location_received(self.on_location)],
    [on_camera_received(self.on_camera)] and
    [on_other_received(self.on_other)]; each once, no other, and all on the
    client its [client] attribute refers to. *)
Theorem init_registers_four_callbacks w :
  let self := length (heap w) in
  let c := S self in
  exists w' evs,
    ExampleApp w = (Returned self, w') /\
    trace w' = trace w ++ evs /\
    registrations evs =
      [(c, on_transcript_received, [VBound self m_on_transcript]);
       (c, on_location_received, [VBound self m_on_location]);
       (c, on_camera_received, [VBound self m_on_camera]);
       (c, on_other_received, [VBound self m_on_other])] /\
    client_of w' self = Some c.
Proof.
  intros self c. rewrite ExampleApp_run. fold self. fold c.
  eexists _, _. split; [reflexivity|]. split; [reflexivity|].
  split; [reflexivity|].
  subst self c. apply client_of_new.
Qed.

(** C2. [ExampleApp()] constructs exactly one [AppClient], a new object,
    with app_id "com.exampletpa.example", app_name "ExampleApp",
    app_description "An example app for AugmentOS", server_url
    "http://localhost:8080" and subscriptions ["*"], and the [client]
    attribute of the new instance refers to it. *)
Theorem init_constructs_one_client w :
  let self := length (heap w) in
  let c := S self in
  exists w' evs,
    ExampleApp w = (Returned self, w') /\
    trace w' = trace w ++ evs /\
    constructions evs =
      [(c, {| app_id := "com.exampletpa.example";
              app_name := "ExampleApp";
              app_description := "An example app for AugmentOS";
              server_url := "http://localhost:8080";
              subscriptions := ["*"%string] |})] /\
    heap w !! c = None /\
    client_of w' self = Some c.
Proof.
  intros self c. rewrite ExampleApp_run. fold self. fold c.
  eexists _, _. split; [reflexivity|]. split; [reflexivity|].
  split; [reflexivity|]. split.
  - apply lookup_ge_None. subst c self. lia.
  - subst self c. apply client_of_new.
Qed.

(** *** C3: start *)

(** C3. On a constructed app, [start] calls [AppClient.start] on the app's
    client once, with no argument, and returns None; the call is its only
    effect, and every object other than the client, the app itself
    included, is left as it was. *)
Theorem start_calls_client_start_once w self c :
  client_of w self = Some c ->
  exists st,
    heap w !! c = Some (Client st) /\
    start self w =
      (Returned VNone,
       {| heap := <[c := Client (sdk_method AppClient_start [] st)]> (heap w);
          trace := trace w ++ [EvClientCall c AppClient_start []] |}) /\
    (forall o, o <> c ->
       <[c := Client (sdk_method AppClient_start [] st)]> (heap w) !! o =
       heap w !! o) /\
    self <> c.
Proof.
  intros H. apply client_of_Some in H as (attrs & st & Hs & Ha & Hc).
  exists st. split; [exact Hc|]. split; [|split].
  - eapply start_run; eauto.
  - intros o Ho. now apply list_lookup_insert_ne.
  - congruence.
Qed.

(** *** C5: the three callbacks that only print *)

(** C5. For every app and every input, [on_location], [on_camera] and
    [on_other] return None, leave the store as it is (no attribute of the
    app or of its client changes, nothing is stored) and their only effect
    is the printed line. *)
Theorem print_only_callbacks w self data :
  on_location py_str self data w =
    (Returned VNone,
     {| heap := heap w;
        trace := trace w ++
          [EvPrint ("[ExampleApp on_location] Data received in callback: "
                    +:+ py_str data)] |}) /\
  on_camera py_str self data w =
    (Returned VNone,
     {| heap := heap w;
        trace := trace w ++
          [EvPrint ("[ExampleApp on_camera] Data received in callback: "
                    +:+ py_str data)] |}) /\
  on_other py_str self data w =
    (Returned VNone,
     {| heap := heap w;
        trace := trace w ++
          [EvPrint ("[ExampleApp on_other] Data received in callback: "
                    +:+ py_str data)] |}).
Proof.
  destruct w as [h t]. unfold on_location, on_camera, on_other, print.
  repeat split; repeat mstep; reflexivity.
Qed.

(** *** C6, C7: on_transcript *)

(** C6. On a constructed app, for a dict [data] with a key 'user_id' and a
    key 'data' whose value is a dict with a key 'text', [on_transcript]
    prints the data and makes one call on the client:
    [send_reference_card(data['user_id'], "ExampleTitle", data['data']['text'])];
    it returns None. *)
Theorem on_transcript_sends_one_card w self c data user_id inner text :
  client_of w self = Some c ->
  item data "user_id" = Some user_id ->
  item data "data" = Some inner ->
  item inner "text" = Some text ->
  exists st,
    heap w !! c = Some (Client st) /\
    on_transcript py_str self data w =
      (Returned VNone,
       {| heap :=
            <[c := Client (sdk_method send_reference_card
                             [user_id; VStr "ExampleTitle"; text] st)]> (heap w);
          trace := trace w ++
            [EvPrint (transcript_line py_str data);
             EvClientCall c send_reference_card
               [user_id; VStr "ExampleTitle"; text]] |}).
Proof.
  intros H Hu Hd Ht. apply client_of_Some in H as (attrs & st & Hs & Ha & Hc).
  destruct data as [| | | | | |items| |]; try discriminate.
  destruct inner as [| | | | | |inner_items| |]; try discriminate.
  cbn [item] in Hu, Hd, Ht.
  exists st. split; [exact Hc|].
  destruct w as [h t]. cbn [heap trace] in *.
  unfold on_transcript, print, call_method. repeat mstep.
  reflexivity.
Qed.

(** C7, as the code has it. On a constructed app, for a dict [data] that
    lacks 'data', or whose 'data' value has no 'text', or that lacks
    'user_id', [on_transcript] prints the data and raises; nothing else
    happens, so no card is sent.  The exception is a KeyError when the
    'data' value is absent or is a dict, and a TypeError when it is present
    and is not a dict. *)
Theorem on_transcript_failure w self c items :
  client_of w self = Some c ->
  dict_get items "data" = None \/
  (exists inner, dict_get items "data" = Some inner /\ item inner "text" = None) \/
  dict_get items "user_id" = None ->
  on_transcript py_str self (VDict items) w =
    (Raised (transcript_error items),
     {| heap := heap w;
        trace := trace w ++ [EvPrint (transcript_line py_str (VDict items))] |}) /\
  (is_KeyError (transcript_error items) = true <->
   forall inner, dict_get items "data" = Some inner -> is_dict inner = true).
Proof.
  intros H Hfail. apply client_of_Some in H as (attrs & st & Hs & Ha & Hc).
  destruct w as [h t]. cbn [heap trace] in *.
  unfold on_transcript, print, call_method, transcript_error.
  destruct (dict_get items "data") as [inner|] eqn:Hd.
  - destruct inner as [| | | | | |inner_items| |];
      try (split;
           [ repeat mstep; reflexivity
           | split; [discriminate | intros Hall; now specialize (Hall _ eq_refl)] ]).
    destruct (dict_get inner_items "text") as [text|] eqn:Ht.
    + assert (Hu : dict_get items "user_id" = None).
      { destruct Hfail as [Hf|[(inner & Hi & Hf)|Hf]]; try discriminate; auto.
        injection Hi as <-. cbn [item] in Hf. congruence. }
      split.
      * repeat mstep. reflexivity.
      * split; [intros _ inner [= <-]|]; reflexivity.
    + split.
      * repeat mstep. reflexivity.
      * split; [intros _ inner [= <-]|]; reflexivity.
  - split.
    + repeat mstep. reflexivity.
    + split; [intros _ inner [=]|]; reflexivity.
Qed.

(** *** C4: main *)

(** C4. [main] constructs the app, starts it, and then idles: whatever
    number of iterations it is given, it is still running after them, it has
    neither returned nor raised, each iteration has performed one
    [asyncio.sleep(3600)] and nothing else, and one more iteration adds one
    more sleep. *)
Theorem main_idles_forever w fuel :
  (main fuel w).1 = Running /\
  (exists w1,
     bind ExampleApp start w = (Returned VNone, w1) /\
     main fuel w =
       (Running,
        {| heap := heap w1;
           trace := trace w1 ++ repeat (EvSleep 3600) fuel |})) /\
  trace (main (S fuel) w).2 = trace (main fuel w).2 ++ [EvSleep 3600].
Proof.
  split; [|split].
  - now rewrite main_run.
  - rewrite (bind_Returned _ _ _ _ _ (ExampleApp_run w)).
    erewrite start_run; cbn [heap];
      [| apply heap_lookup_0 | apply lookup_insert_eq | apply heap_lookup_1 ].
    eexists. split; [reflexivity|]. cbn [heap trace].
    rewrite main_run, heap_insert_1. now rewrite <- !app_assoc.
  - rewrite !main_run. cbn [snd trace].
    rewrite <- !app_assoc, <- repeat_cons. reflexivity.
Qed.

(** *** C8: the client attribute *)

(** C8. The [client] attribute of the app is assigned once, by the
    constructor, to the client the constructor creates; after any sequence
    of [start], [on_transcript], [on_location], [on_camera] and [on_other],
    on any inputs, it still refers to that client and no assignment has been
    made; and throughout [main] the one assignment is the constructor's. *)
Theorem client_field_assigned_once w ops fuel :
  let self := length (heap w) in
  let c := S self in
  exists w1 evs1,
    ExampleApp w = (Returned self, w1) /\
    trace w1 = trace w ++ evs1 /\
    assignments evs1 = [(self, "client"%string, VRef c)] /\
    client_of w1 self = Some c /\
    (client_of (perform_all py_str self ops w1) self = Some c /\
     exists evs2,
       trace (perform_all py_str self ops w1) = trace w1 ++ evs2 /\
       assignments evs2 = []) /\
    (client_of (main fuel w).2 self = Some c /\
     exists evs3,
       trace (main fuel w).2 = trace w ++ evs3 /\
       assignments evs3 = [(self, "client"%string, VRef c)]).
Proof.
  intros self c. rewrite ExampleApp_run. fold self. fold c.
  eexists _, _. split; [reflexivity|]. split; [reflexivity|].
  split; [reflexivity|].
  assert (H1 : client_of
            {| heap := heap w ++
                 [Instance (<["client" := VRef c]> ∅);
                  Client (registered_state self)];
               trace := trace w ++ init_events self c |} self = Some c).
  { subst self c. apply client_of_new. }
  split; [exact H1|]. split.
  - now apply perform_all_keeps_client.
  - rewrite main_run. fold self. fold c. cbn [snd]. split.
    + subst self c. apply client_of_new.
    + eexists. split; [reflexivity|].
      unfold assignments. rewrite !omap_app.
      fold (assignments (repeat (EvSleep 3600) fuel)).
      rewrite assignments_sleeps. reflexivity.
Qed.

(** *** More about on_transcript and the operations *)

(** [on_transcript] on a constructed app, on any input: the card when the
    three subscripts succeed, an exception after the printed line
    otherwise. *)
Lemma on_transcript_cases w self c attrs st data :
  heap w !! self = Some (Instance attrs) ->
  attrs !! "client" = Some (VRef c) ->
  heap w !! c = Some (Client st) ->
  match transcript_fields data with
  | Some (user_id, text) =>
      on_transcript py_str self data w =
        (Returned VNone,
         {| heap :=
              <[c := Client (sdk_method send_reference_card
                               [user_id; VStr "ExampleTitle"; text] st)]> (heap w);
            trace := trace w ++
              [EvPrint (transcript_line py_str data);
               EvClientCall c send_reference_card
                 [user_id; VStr "ExampleTitle"; text]] |})
  | None =>
      exists e,
        on_transcript py_str self data w =
          (Raised e,
           {| heap := heap w;
              trace := trace w ++ [EvPrint (transcript_line py_str data)] |})
  end.
Proof.
  intros Hs Ha Hc. destruct w as [h t]. cbn [heap trace] in *.
  unfold transcript_fields, on_transcript, print, call_method, transcript_line.
  destruct data as [| | | | | |items| |]; cbn [item];
    try (eexists; repeat mstep; reflexivity).
  destruct (dict_get items "data") as [inner|] eqn:Hd;
    [|eexists; repeat mstep; reflexivity].
  destruct inner as [| | | | | |inner_items| |]; cbn [item];
    try (eexists; repeat mstep; reflexivity).
  destruct (dict_get inner_items "text") as [text|] eqn:Ht;
    [|eexists; repeat mstep; reflexivity].
  destruct (dict_get items "user_id") as [user_id|] eqn:Hu;
    [|eexists; repeat mstep; reflexivity].
  repeat mstep. reflexivity.
Qed.

(** One operation on a constructed app: the client goes through the
    expected calls, and these are the calls of the trace. *)
Lemma perform_run w self c attrs st op :
  heap w !! self = Some (Instance attrs) ->
  attrs !! "client" = Some (VRef c) ->
  heap w !! c = Some (Client st) ->
  heap (perform py_str self op w).2 =
    <[c := Client (after_calls (expected_calls op) st)]> (heap w) /\
  exists evs,
    trace (perform py_str self op w).2 = trace w ++ evs /\
    client_calls evs = (fun call => (c, call.1, call.2)) <$> expected_calls op.
Proof.
  intros Hs Ha Hc.
  assert (Hid : <[c := Client st]> (heap w) = heap w) by now apply list_insert_id.
  destruct op as [|data|data|data|data]; cbn [perform expected_calls].
  - rewrite (start_run _ _ _ _ _ Hs Ha Hc). cbn [snd heap trace].
    split; [reflexivity|]. eexists. split; reflexivity.
  - pose proof (on_transcript_cases w self c attrs st data Hs Ha Hc) as E.
    destruct (transcript_fields data) as [[user_id text]|].
    + rewrite E. cbn [snd heap trace]. split; [reflexivity|].
      eexists. split; reflexivity.
    + destruct E as [e E]. rewrite E. cbn [snd heap trace after_calls foldl].
      split; [now rewrite Hid|]. eexists. split; reflexivity.
  - cbn [after_calls foldl]. rewrite Hid. split; [reflexivity|].
    eexists. split; reflexivity.
  - cbn [after_calls foldl]. rewrite Hid. split; [reflexivity|].
    eexists. split; reflexivity.
  - cbn [after_calls foldl]. rewrite Hid. split; [reflexivity|].
    eexists. split; reflexivity.
Qed.

Lemma perform_all_run ops w self c attrs st :
  heap w !! self = Some (Instance attrs) ->
  attrs !! "client" = Some (VRef c) ->
  heap w !! c = Some (Client st) ->
  heap (perform_all py_str self ops w) =
    <[c := Client (after_calls (flat_map expected_calls ops) st)]> (heap w) /\
  exists evs,
    trace (perform_all py_str self ops w) = trace w ++ evs /\
    client_calls evs =
      (fun call => (c, call.1, call.2)) <$> flat_map expected_calls ops.
Proof.
  revert w st. induction ops as [|op ops IH]; intros w st Hs Ha Hc;
    cbn [perform_all flat_map].
  - split.
    + cbn. symmetry. now apply list_insert_id.
    + exists []. split; [now rewrite app_nil_r | reflexivity].
  - destruct (perform_run w self c attrs st op Hs Ha Hc) as (Hh & evs1 & T1 & C1).
    assert (self <> c) by congruence.
    assert (Hlt : c < length (heap w)) by (eapply lookup_lt_Some; eauto).
    destruct (IH (perform py_str self op w).2
                (after_calls (expected_calls op) st)) as (Hh2 & evs2 & T2 & C2).
    + rewrite Hh, list_lookup_insert_ne by congruence. exact Hs.
    + exact Ha.
    + rewrite Hh. now apply list_lookup_insert_eq.
    + split.
      * rewrite Hh2, Hh, list_insert_insert_eq.
        unfold after_calls. now rewrite foldl_app.
      * exists (evs1 ++ evs2). split.
        -- now rewrite T2, T1, app_assoc.
        -- unfold client_calls in *. now rewrite omap_app, C1, C2, fmap_app.
Qed.

(** *** Quiet programs *)

Lemma instances_insert_client h c st st' :
  h !! c = Some (Client st) ->
  instances (<[c := Client st']> h) = instances h.
Proof.
  intros Hc. unfold instances. rewrite list_fmap_insert.
  apply list_insert_id. rewrite list_lookup_fmap.
  unfold loc in *. now rewrite Hc.
Qed.

Lemma settled_refl w : settled w w.
Proof.
  split; [reflexivity|]. exists []. now rewrite app_nil_r.
Qed.

Lemma settled_trans w1 w2 w3 : settled w1 w2 -> settled w2 w3 -> settled w1 w3.
Proof.
  intros (I1 & evs1 & T1 & A1 & C1) (I2 & evs2 & T2 & A2 & C2). split.
  - now rewrite I2.
  - exists (evs1 ++ evs2). split; [now rewrite T2, T1, app_assoc|].
    unfold assignments, constructions in *.
    now rewrite !omap_app, A1, A2, C1, C2.
Qed.

Lemma quiet_ret {A} (a : A) : quiet (ret a).
Proof. intros w. apply settled_refl. Qed.

Lemma quiet_raise {A} e : quiet (raise (A := A) e).
Proof. intros w. apply settled_refl. Qed.

Lemma quiet_bind {A B} (m : M A) (k : A -> M B) :
  quiet m -> (forall a, quiet (k a)) -> quiet (bind m k).
Proof.
  intros Hm Hk w. specialize (Hm w). unfold bind.
  destruct (m w) as [[a|e|] w1]; cbn [snd] in *; [|exact Hm..].
  eapply settled_trans; [exact Hm | apply Hk].
Qed.

Lemma quiet_print line : quiet (print line).
Proof.
  intros [h t]. split; [reflexivity|]. exists [EvPrint line]. now split.
Qed.

Lemma quiet_getattr o name : quiet (getattr o name).
Proof.
  intros w. unfold getattr. repeat case_match; apply settled_refl.
Qed.

Lemma quiet_subscript v key : quiet (subscript v key).
Proof.
  intros w. unfold subscript. repeat case_match; apply settled_refl.
Qed.

Lemma quiet_client_attr v m : quiet (client_attr v m).
Proof.
  intros w. unfold client_attr. repeat case_match; apply settled_refl.
Qed.

Lemma quiet_invoke c m args : quiet (invoke c m args).
Proof.
  intros w. unfold invoke.
  destruct (heap w !! c) as [[attrs|st]|] eqn:Hc; try apply settled_refl.
  split; cbn [snd heap trace].
  - eapply instances_insert_client; eauto.
  - exists [EvClientCall c m args]. now split.
Qed.

Lemma quiet_call_method v m args : quiet args -> quiet (call_method v m args).
Proof.
  intros Ha. unfold call_method.
  apply quiet_bind; [apply quiet_client_attr|]. intros c.
  apply quiet_bind; [exact Ha|]. intros a. apply quiet_invoke.
Qed.

Create HintDb quiet.
#[local] Hint Resolve quiet_ret quiet_raise quiet_print quiet_getattr
  quiet_subscript quiet_client_attr quiet_invoke quiet_call_method : quiet.
#[local] Hint Extern 2 (quiet (bind _ _)) => apply quiet_bind; [|intros ?] : quiet.



Lemma omap_sleeps {B} (f : event -> option B) seconds n :
  f (EvSleep seconds) = None -> omap f (repeat (EvSleep seconds) n) = [].
Proof.
  intros Hf. induction n as [|n IH]; [reflexivity|].
  simpl. rewrite Hf. exact IH.
Qed.

(** *** X1-X9: further properties *)

(** X1. Whatever its input and whatever the state of the app (even one
    whose [client] is not set), the first effect of [on_transcript] is the
    printed line with the data; what follows changes no instance, creates
    no object, assigns no attribute and constructs no client. *)
Theorem on_transcript_logs_first w self data :
  exists evs,
    trace (on_transcript py_str self data w).2 =
      trace w ++ EvPrint (transcript_line py_str data) :: evs /\
    assignments evs = [] /\
    constructions evs = [] /\
    instances (heap (on_transcript py_str self data w).2) = instances (heap w).
Proof.
  destruct w as [h t]. unfold on_transcript, print, transcript_line.
  repeat mstep.
  match goal with
  | |- context [snd (?rest ?w1)] =>
      assert (Hq : quiet rest) by auto 20 with quiet;
      destruct (Hq w1) as (Hi & evs & Ht & Ha & Hc)
  end.
  exists evs. cbn [heap trace] in *.
  rewrite Ht, <- app_assoc. auto.
Qed.

(** X2. On a constructed app, [on_transcript] returns normally exactly when
    its input is a dict with 'user_id' and with a 'data' dict that has
    'text'.  On every other input (a non-dict, a missing key, a payload
    that is not a dict) it raises, and the printed line is its only
    effect. *)
Theorem on_transcript_returns_iff_fields w self c data :
  client_of w self = Some c ->
  ((on_transcript py_str self data w).1 = Returned VNone <->
   is_Some (transcript_fields data)) /\
  (is_Some (transcript_fields data) \/
   exists e,
     on_transcript py_str self data w =
       (Raised e,
        {| heap := heap w;
           trace := trace w ++ [EvPrint (transcript_line py_str data)] |})).
Proof.
  intros H. apply client_of_Some in H as (attrs & st & Hs & Ha & Hc).
  pose proof (on_transcript_cases w self c attrs st data Hs Ha Hc) as E.
  destruct (transcript_fields data) as [[user_id text]|].
  - rewrite E. split; [|left; eauto]. split; eauto.
  - destruct E as [e E]. rewrite E. split; [|right; eauto].
    split; [discriminate | intros [x Hx]; discriminate].
Qed.

(** X3. On a constructed app, after any sequence of operations the calls
    made on the client are, in order, one [start()] for each [start] and
    one [send_reference_card(user_id, "ExampleTitle", text)] for each
    transcript whose three subscripts succeed; nothing for the other
    callbacks and the failing transcripts.  The client is in the state
    these calls lead to: no call is skipped, merged or guarded. *)
Theorem calls_follow_operations w self c ops :
  client_of w self = Some c ->
  exists st,
    heap w !! c = Some (Client st) /\
    heap (perform_all py_str self ops w) !! c =
      Some (Client (after_calls (flat_map expected_calls ops) st)) /\
    exists evs,
      trace (perform_all py_str self ops w) = trace w ++ evs /\
      client_calls evs =
        (fun call => (c, call.1, call.2)) <$> flat_map expected_calls ops.
Proof.
  intros H. apply client_of_Some in H as (attrs & st & Hs & Ha & Hc).
  destruct (perform_all_run ops w self c attrs st Hs Ha Hc) as (Hh & Hev).
  exists st. split; [exact Hc|]. split; [|exact Hev].
  rewrite Hh. apply list_lookup_insert_eq. eapply lookup_lt_Some; eauto.
Qed.

(** X4. On a constructed app, no sequence of operations changes any object
    other than the app's own client: the app itself, other apps and other
    clients are as they were, and the store has the same size. *)
Theorem operations_change_only_own_client w self c ops o :
  client_of w self = Some c ->
  o <> c ->
  heap (perform_all py_str self ops w) !! o = heap w !! o /\
  length (heap (perform_all py_str self ops w)) = length (heap w).
Proof.
  intros H Ho. apply client_of_Some in H as (attrs & st & Hs & Ha & Hc).
  destruct (perform_all_run ops w self c attrs st Hs Ha Hc) as (Hh & _).
  rewrite Hh. split.
  - apply list_lookup_insert_ne. congruence.
  - apply length_insert.
Qed.

(** X5. Constructing another [ExampleApp] leaves every app that exists
    alone: its [client] attribute, its client and the state of that client
    are unchanged, and the new app gets a client of its own, different from
    the existing one. *)
Theorem construction_keeps_other_apps w a c :
  client_of w a = Some c ->
  client_of (ExampleApp w).2 a = Some c /\
  heap (ExampleApp w).2 !! a = heap w !! a /\
  heap (ExampleApp w).2 !! c = heap w !! c /\
  client_of (ExampleApp w).2 (length (heap w)) = Some (S (length (heap w))) /\
  a <> length (heap w) /\
  c <> S (length (heap w)).
Proof.
  intros H. apply client_of_Some in H as (attrs & st & Hs & Ha & Hc).
  pose proof (lookup_lt_Some _ _ _ Hs) as La.
  pose proof (lookup_lt_Some _ _ _ Hc) as Lc.
  rewrite ExampleApp_run. cbn [snd heap].
  assert (Ea : forall o r, o < length (heap w) -> (heap w ++ r) !! o = heap w !! o)
    by (intros; now apply lookup_app_l).
  split; [|split; [|split; [|split; [|split]]]].
  - eapply client_of_intro; cbn [heap]; [rewrite Ea by lia; eauto | eauto |].
    rewrite Ea by lia. eauto.
  - now apply Ea.
  - now apply Ea.
  - apply client_of_new.
  - lia.
  - lia.
Qed.


(** X7. Whatever the number of iterations, [main] prints nothing and sends
    no reference card: it constructs one client, and the calls it makes on
    it are the four registrations and one [start()], in this order. *)
Theorem main_effects w fuel :
  let self := length (heap w) in
  let c := S self in
  exists evs,
    trace (main fuel w).2 = trace w ++ evs /\
    prints evs = [] /\
    constructions evs = [(c, example_args)] /\
    client_calls evs =
      [(c, on_transcript_received, [VBound self m_on_transcript]);
       (c, on_location_received, [VBound self m_on_location]);
       (c, on_camera_received, [VBound self m_on_camera]);
       (c, on_other_received, [VBound self m_on_other]);
       (c, AppClient_start, [])].
Proof.
  intros self c. rewrite main_run. fold self. fold c. cbn [snd trace].
  eexists. split; [reflexivity|].
  unfold prints, constructions, client_calls.
  rewrite !omap_app, !omap_sleeps by reflexivity. repeat split.
Qed.


(** X9. The callback [ExampleApp()] registers with
    [on_transcript_received] is the new app's own [on_transcript]: called
    with an input whose three subscripts succeed, it sends the card through
    the very client it was registered on. *)
Theorem registered_transcript_callback_sends_card w data user_id text :
  transcript_fields data = Some (user_id, text) ->
  let self := length (heap w) in
  let c := S self in
  exists w1 evs cb rest,
    ExampleApp w = (Returned self, w1) /\
    trace w1 = trace w ++ evs /\
    registrations evs = (c, on_transcript_received, [cb]) :: rest /\
    call py_str cb [data] w1 =
      (Returned VNone,
       {| heap :=
            <[c := Client (sdk_method send_reference_card
                             [user_id; VStr "ExampleTitle"; text]
                             (registered_state self))]> (heap w1);
          trace := trace w1 ++
            [EvPrint (transcript_line py_str data);
             EvClientCall c send_reference_card
               [user_id; VStr "ExampleTitle"; text]] |}).
Proof.
  intros Hf self c. rewrite ExampleApp_run. fold self. fold c.
  eexists _, _, _, _. split; [reflexivity|]. split; [reflexivity|].
  split; [reflexivity|]. cbn [call].
  match goal with
  | |- on_transcript _ _ _ ?w1 = _ =>
      pose proof (on_transcript_cases w1 self c
                    (<["client" := VRef c]> ∅) (registered_state self) data) as E
  end.
  rewrite Hf in E. apply E; cbn [heap]; subst self c.
  - apply heap_lookup_0.
  - apply lookup_insert_eq.
  - apply heap_lookup_1.
Qed.

End Correctness.

(** ** The theorems at work on the recording client *)

(** C3 on the world [ExampleApp()] leaves: app 0, client 1. *)
Lemma start_on_app_world :
  client_of app_world 0 = Some 1 /\
  exists st,
    heap app_world !! 1 = Some (Client st) /\
    start 0 app_world =
      (Returned VNone,
       {| heap := <[1 := Client (sdk_method AppClient_start [] st)]> (heap app_world);
          trace := trace app_world ++ [EvClientCall 1 AppClient_start []] |}) /\
    (forall o, o <> 1 ->
       <[1 := Client (sdk_method AppClient_start [] st)]> (heap app_world) !! o =
       heap app_world !! o) /\
    0 <> 1.
Proof.
  split; [reflexivity|].
  apply (start_calls_client_start_once app_world 0 1). reflexivity.
Defined.

(** C6 on a transcript event: the card goes to "user-1" with the text of
    the event. *)
Lemma transcript_event_sends_card :
  exists st,
    heap app_world !! 1 = Some (Client st) /\
    on_transcript py_repr 0 transcript_event app_world =
      (Returned VNone,
       {| heap :=
            <[1 := Client (sdk_method send_reference_card
                             [VStr "user-1"; VStr "ExampleTitle"; VStr "hello world"]
                             st)]> (heap app_world);
          trace := trace app_world ++
            [EvPrint (transcript_line py_repr transcript_event);
             EvClientCall 1 send_reference_card
               [VStr "user-1"; VStr "ExampleTitle"; VStr "hello world"]] |}).
Proof.
  apply (on_transcript_sends_one_card py_repr app_world 0 1 transcript_event
           (VStr "user-1") (VDict [("text"%string, VStr "hello world")])
           (VStr "hello world"));
    reflexivity.
Defined.

(** C7: an event with a null payload and no 'user_id'.  The dict lacks
    'user_id', and the exception is a TypeError, not a KeyError. *)
Lemma null_payload_raises_TypeError :
  is_dict null_payload_event = true /\
  item null_payload_event "user_id" = None /\
  client_of app_world 0 = Some 1 /\
  (on_transcript py_repr 0 null_payload_event app_world).1 = Raised TypeError /\
  is_KeyError TypeError = false.
Proof. repeat split. Qed.

(** C7 as the code has it, on an event without 'user_id' and on the event
    with a null payload. *)
Lemma malformed_events_fail :
  on_transcript py_repr 0 anonymous_event app_world =
    (Raised (KeyError "user_id"),
     {| heap := heap app_world;
        trace := trace app_world ++
          [EvPrint (transcript_line py_repr anonymous_event)] |}) /\
  on_transcript py_repr 0 null_payload_event app_world =
    (Raised TypeError,
     {| heap := heap app_world;
        trace := trace app_world ++
          [EvPrint (transcript_line py_repr null_payload_event)] |}).
Proof.
  split.
  - apply (on_transcript_failure py_repr app_world 0 1
             [("data"%string, VDict [("text"%string, VStr "hello world")])]).
    + reflexivity.
    + right. right. reflexivity.
  - apply (on_transcript_failure py_repr app_world 0 1 [("data"%string, VNone)]).
    + reflexivity.
    + right. right. reflexivity.
Defined.

(** X2 on the transcript event. *)
Lemma transcript_event_returns :
  ((on_transcript py_repr 0 transcript_event app_world).1 = Returned VNone <->
   is_Some (transcript_fields transcript_event)) /\
  (is_Some (transcript_fields transcript_event) \/
   exists e,
     on_transcript py_repr 0 transcript_event app_world =
       (Raised e,
        {| heap := heap app_world;
           trace := trace app_world ++
             [EvPrint (transcript_line py_repr transcript_event)] |})).
Proof.
  apply (on_transcript_returns_iff_fields py_repr app_world 0 1 transcript_event).
  reflexivity.
Defined.

(** X3 on the sample run: one start and one card. *)
Lemma sample_run_calls :
  exists st,
    heap app_world !! 1 = Some (Client st) /\
    heap (perform_all py_repr 0 sample_ops app_world) !! 1 =
      Some (Client (after_calls (flat_map expected_calls sample_ops) st)) /\
    exists evs,
      trace (perform_all py_repr 0 sample_ops app_world) = trace app_world ++ evs /\
      client_calls evs =
        (fun call => (1, call.1, call.2)) <$> flat_map expected_calls sample_ops.
Proof.
  apply (calls_follow_operations py_repr app_world 0 1 sample_ops). reflexivity.
Defined.

(** X4 on the sample run: the app object itself is untouched. *)
Lemma sample_run_keeps_app :
  heap (perform_all py_repr 0 sample_ops app_world) !! 0 = heap app_world !! 0 /\
  length (heap (perform_all py_repr 0 sample_ops app_world)) = length (heap app_world).
Proof.
  apply (operations_change_only_own_client py_repr app_world 0 1 sample_ops 0).
  - reflexivity.
  - discriminate.
Defined.

(** X5: a second app next to the first. *)
Lemma second_app_keeps_first :
  client_of (ExampleApp app_world).2 0 = Some 1 /\
  heap (ExampleApp app_world).2 !! 0 = heap app_world !! 0 /\
  heap (ExampleApp app_world).2 !! 1 = heap app_world !! 1 /\
  client_of (ExampleApp app_world).2 (length (heap app_world)) =
    Some (S (length (heap app_world))) /\
  0 <> length (heap app_world) /\
  1 <> S (length (heap app_world)).
Proof.
  apply (construction_keeps_other_apps app_world 0 1). reflexivity.
Defined.

(** X9: the registered transcript callback on the transcript event. *)
Lemma registered_callback_on_transcript_event :
  exists w1 evs cb rest,
    ExampleApp empty_world = (Returned 0, w1) /\
    trace w1 = trace empty_world ++ evs /\
    registrations evs = (1, on_transcript_received, [cb]) :: rest /\
    call py_repr cb [transcript_event] w1 =
      (Returned VNone,
       {| heap :=
            <[1 := Client (sdk_method send_reference_card
                             [VStr "user-1"; VStr "ExampleTitle"; VStr "hello world"]
                             (registered_state 0))]> (heap w1);
          trace := trace w1 ++
            [EvPrint (transcript_line py_repr transcript_event);
             EvClientCall 1 send_reference_card
               [VStr "user-1"; VStr "ExampleTitle"; VStr "hello world"]] |}).
Proof.
  apply (registered_transcript_callback_sends_card py_repr empty_world
           transcript_event (VStr "user-1") (VStr "hello world")).
  reflexivity.
Defined.
